(** * GraphControls: zoom slider, zoom-to-fit and help overlay of GraphView

    A shallow embedding of [src/components/graph-controls.js].

    Numbers.  A JavaScript number is taken as an exact rational ([Q]); the
    arithmetic of the source ([*], [-], [/], [+], [<=], [>=]) is the
    arithmetic of [Q], so a statement "up to floating-point tolerance"
    reads here as the equality [==] of rationals.  Not-a-number and the
    infinities are outside this model, and so is rounding: what is stated
    below of the zoom handler is conditional on the value that the map
    returns, and nothing is stated that would need a product or a sum to
    land on a bound exactly.

    Imports.  The component imports [SLIDER_STEPS], [DEFAULT_MAX_ZOOM] and
    [DEFAULT_MIN_ZOOM] from [../constants]; their values are left open, as
    section variables, [SLIDER_STEPS] being a positive integer.  The hook
    [useZoomLevelToSliderValue] is imported too; its map is taken from
    section 4.1 of the specification.

    React.  A render, its commit (refs) and its effects (cleanup of the
    previous run, then the body) make one step: no event is handled in
    between.  One instance of the component is mounted at a time. *)

From Stdlib Require Import QArith Qfield Lqa ZArith Lia Bool List String.
Import ListNotations.

Local Open Scope Q_scope.

(** ** JavaScript values used by the component *)

Module JS.

(** [ToBoolean] on a number: a number is falsy exactly when it is zero. *)
Definition truthy (x : Q) : bool := negb (Qeq_bool x 0).

(** [x || y] on numbers: [x] when [x] is truthy, [y] otherwise. *)
Definition or (x y : Q) : Q := if truthy x then x else y.

(** [x <= y] and [x >= y]. *)
Definition le (x y : Q) : bool := Qle_bool x y.
Definition ge (x y : Q) : bool := Qle_bool y x.

(** What an uncaught exception carries. *)
Inductive error : Type :=
| TypeError (msg : string).

(** Outcome of running a piece of code that may throw. *)
Inductive completion (A : Type) : Type :=
| Normal (a : A)
| Throw (e : error).
Arguments Normal {A} a.
Arguments Throw {A} e.

Definition bind {A B : Type} (c : completion A) (k : A -> completion B)
  : completion B :=
  match c with
  | Normal a => k a
  | Throw e => Throw e
  end.

End JS.

Notation "x <- c ;; k" := (JS.bind c (fun x => k))
  (at level 61, c at next level, right associativity).

(** ** Sample values for the constants of [../constants] *)

Module Sample.

Definition steps : positive := 100.
Definition max_zoom : Q := 3 # 2.
Definition min_zoom : Q := 3 # 20.

End Sample.

(** ** The zoom-range mapper *)

Section Mapper.

Variable SLIDER_STEPS : positive.

Definition steps : Q := inject_Z (Zpos SLIDER_STEPS).

(** [sliderToZoom], lines 46-48: slider value (0..steps) to zoom value. *)
Definition sliderToZoom (val minZoom maxZoom : Q) : Q :=
  (val * (maxZoom - minZoom)) / steps + minZoom.

(** The inverse map in the words of the specification, section 4.1. *)
Definition toZoom_spec (sliderPosition min max : Q) : Q :=
  (sliderPosition * (max - min)) / steps + min.

(** Modelled from the spec: the hook [useZoomLevelToSliderValue] of
    [../hooks/useZoomLevelToSliderValue] is missing; section 4.1 gives
    the forward linear map [((zoomLevel - min) / (max - min)) * STEPS]. *)
Definition toSlider (zoomLevel min max : Q) : Q :=
  ((zoomLevel - min) / (max - min)) * steps.

(** The gate of [zoom], line 69, as written. *)
Definition in_range (zoomLevelNext minZoom maxZoom : Q) : bool :=
  JS.le zoomLevelNext (JS.or maxZoom 0) && JS.ge zoomLevelNext (JS.or minZoom 0).

(** The plain check [minZoom <= zoomLevelNext <= maxZoom]. *)
Definition in_range_plain (zoomLevelNext minZoom maxZoom : Q) : bool :=
  JS.le minZoom zoomLevelNext && JS.le zoomLevelNext maxZoom.

End Mapper.

(** ** The document and the rendered tree *)

Module Dom.

(** A node of the subtree rendered by the component is named by the child
    indices that lead to it from the component's root element. *)
Definition path : Type := list nat.

(** Where an event was targeted: at a node of the component's subtree, or
    at some other node of the document. *)
Inductive target : Type :=
| Within (p : path)
| Elsewhere.

Fixpoint is_prefix (a b : path) : bool :=
  match a, b with
  | [], _ => true
  | x :: a', y :: b' => Nat.eqb x y && is_prefix a' b'
  | _ :: _, [] => false
  end.

(** [Node.contains]: the node itself and its descendants. *)
Definition contains (c : path) (t : target) : bool :=
  match t with
  | Within p => is_prefix c p
  | Elsewhere => false
  end.

#[local] Set Warnings "-register-all".

(** What [render] returns.  [ref] marks the element that carries
    [ref={helpContainerRef}]. *)
Inductive vdom : Type :=
| Element (tag : string) (className : list string) (ref : bool)
          (children : list vdom)
| RangeInput (className : list string) (min max value : Q)
| Icon (name : string)
| Text (s : string).

(** [cond && child] among JSX children: nothing is rendered for [false]. *)
Definition when (cond : bool) (child : vdom) : list vdom :=
  if cond then [child] else [].

Definition mem (s : string) (l : list string) : bool :=
  existsb (String.eqb s) l.

(** Is an element of class [cls] part of the tree? *)
Fixpoint has_class (cls : string) (v : vdom) : bool :=
  match v with
  | Element _ cs _ children =>
      mem cls cs || existsb (has_class cls) children
  | RangeInput cs _ _ _ => mem cls cs
  | Icon _ | Text _ => false
  end.

(** Is the text [s] part of the tree? *)
Fixpoint has_text (s : string) (v : vdom) : bool :=
  match v with
  | Element _ _ _ children => existsb (has_text s) children
  | Text s' => String.eqb s s'
  | RangeInput _ _ _ _ | Icon _ => false
  end.

(** The node a ref is attached to when the tree is committed. *)
Fixpoint find_ref (v : vdom) : option path :=
  match v with
  | Element _ _ r children =>
      if r then Some []
      else
        (fix scan (i : nat) (l : list vdom) : option path :=
           match l with
           | [] => None
           | c :: l' =>
               match find_ref c with
               | Some p => Some (i :: p)
               | None => scan (S i) l'
               end
           end) 0%nat children
  | _ => None
  end.

(** The click listeners of [document], oldest first; a listener is the
    identity of a closure. *)
Definition addEventListener (h : nat) (l : list nat) : list nat :=
  if existsb (Nat.eqb h) l then l else l ++ [h].

Definition removeEventListener (h : nat) (l : list nat) : list nat :=
  remove Nat.eq_dec h l.

End Dom.

(** ** The component *)

Section GraphControls.

Variable SLIDER_STEPS : positive.
Variables DEFAULT_MAX_ZOOM DEFAULT_MIN_ZOOM : Q.

Import Dom.

(** [IGraphControlProps], lines 35-43.  An optional property that was not
    passed is [None].  The two callbacks are seen through the calls made
    to them, below. *)
Record Props : Type := {
  maxZoom : option Q;
  minZoom : option Q;
  zoomLevel : Q;
  showHelp : option bool;
  allowMultiSelect : option bool;
}.

(** Calls of the callbacks received as properties. *)
Inductive call : Type :=
| ModifyZoom (delta : Q)
| ZoomToFit.

(** Parameter defaults of the destructuring, lines 51-52. *)
Definition maxZoom_of (p : Props) : Q :=
  match maxZoom p with Some x => x | None => DEFAULT_MAX_ZOOM end.

Definition minZoom_of (p : Props) : Q :=
  match minZoom p with Some x => x | None => DEFAULT_MIN_ZOOM end.

(** [ToBoolean] on an optional boolean property. *)
Definition on (b : option bool) : bool :=
  match b with Some true => true | _ => false end.

(** Same value as far as a dependency array goes. *)
Definition same_dep (a b : option bool) : bool :=
  match a, b with
  | None, None => true
  | Some x, Some y => Bool.eqb x y
  | _, _ => false
  end.

(** The state that one mounted instance owns. *)
Record Instance : Type := {
  props : Props;
  (** [useState(false)], line 59 *)
  helpShowing : bool;
  (** [helpContainerRef.current], line 60; [None] is undefined or null *)
  helpContainerRef : option path;
  (** the closure [handleDocumentClick] made by the latest render *)
  handler : nat;
  (** what the last run of the effect returned: the closure to remove *)
  cleanup : option nat;
}.

(** [zoom], lines 63-74.  [sliderVal] is the number that [e.target.value]
    denotes (the product in [sliderToZoom] converts the string).  The
    result lists the calls made. *)
Definition zoom (p : Props) (sliderVal : Q) : list call :=
  let zoomLevelNext :=
    sliderToZoom SLIDER_STEPS sliderVal (minZoom_of p) (maxZoom_of p) in
  let delta := zoomLevelNext - zoomLevel p in
  if in_range zoomLevelNext (minZoom_of p) (maxZoom_of p)
  then [ModifyZoom delta]
  else [].

(** [render], lines 98-155.  Event handlers are left out of the tree: what
    they do is in [step], below. *)
Definition render (p : Props) (showing : bool) : vdom :=
  let min := toSlider SLIDER_STEPS (minZoom_of p) (minZoom_of p) (maxZoom_of p) in
  let max := toSlider SLIDER_STEPS (maxZoom_of p) (minZoom_of p) (maxZoom_of p) in
  let value := toSlider SLIDER_STEPS (zoomLevel p) (minZoom_of p) (maxZoom_of p) in
  let helpButtonClassnames :=
    "help-button"%string :: (if showing then ["help-showing"%string] else []) in
  Element "div" ["graph-controls"%string] false
    ([ Element "div" ["slider-wrapper"%string] false
         [ Element "span" [] false [Text "-"];
           RangeInput ["slider"%string] min max value;
           Element "span" [] false [Text "+"] ];
       Element "button" ["slider-button"%string] false [Icon "expand"] ]
     ++ when (on (showHelp p))
          (Element "div" ["help-container"%string] true
             ([ Element "button" helpButtonClassnames false [Icon "question"] ]
              ++ when showing
                   (Element "div" ["help-menu"%string] false
                      [ Element "ul" [] false
                          ([ Element "li" [] false
                               [ Element "label" [] false [Text "Create Node:"];
                                 Text " Shift+Click" ];
                             Element "li" [] false
                               [ Element "label" [] false [Text "Create Edge:"];
                                 Text " Shift+Click on node, drag mouse to target node" ] ]
                           ++ when (on (allowMultiSelect p))
                                (Element "li" [] false
                                   [ Element "label" [] false
                                       [Text "Select Multiple Nodes:"];
                                     Text " [Ctrl/Cmd]+Shift+Click and drag" ])) ])))).

(** Committing a render sets the ref to the node of the element that
    carries it, or to null when no such element is rendered. *)
Definition commit (p : Props) (showing : bool) : option path :=
  find_ref (render p showing).

(** [setHelpShowing]: a new value is stored and the component renders
    again, which makes a new closure; the same value changes nothing. *)
Definition setHelpShowing (b : bool) (i : Instance) : Instance :=
  if Bool.eqb b (helpShowing i) then i
  else {| props := props i;
          helpShowing := b;
          helpContainerRef := commit (props i) b;
          handler := S (handler i);
          cleanup := cleanup i |}.

(** [helpContainerRef.current.contains(e.target)]: reading a property of
    undefined or null throws. *)
Definition current_contains (current : option path) (t : target)
  : JS.completion bool :=
  match current with
  | Some c => JS.Normal (contains c t)
  | None => JS.Throw (JS.TypeError "helpContainerRef.current has no property contains")
  end.

(** [handleDocumentClick], lines 76-80. *)
Definition handleDocumentClick (i : Instance) (t : target)
  : JS.completion Instance :=
  inside <- current_contains (helpContainerRef i) t ;;
  JS.Normal (if negb inside then setHelpShowing false i else i).

(** The handler of the help button, line 129. *)
Definition helpButtonMouseDown (i : Instance) : Instance :=
  setHelpShowing (negb (helpShowing i)) i.

(** The body of the effect, lines 82-96, run for the render whose closure
    is [h]: the listeners afterwards and the cleanup it returns. *)
Definition effect (show : option bool) (h : nat) (listeners : list nat)
  : list nat * option nat :=
  if negb (on show)
  then (removeEventListener h listeners, None)
  else (addEventListener h listeners, Some h).

(** Running the cleanup of the previous run, line 94. *)
Definition run_cleanup (c : option nat) (listeners : list nat) : list nat :=
  match c with
  | Some h => removeEventListener h listeners
  | None => listeners
  end.

(** *** The component in its document *)

Record World : Type := {
  (** the mounted instance, if any *)
  instance : option Instance;
  (** closures registered for [click] on [document] *)
  listeners : list nat;
  (** calls made to [modifyZoom] and [zoomToFit], oldest first *)
  calls : list call;
  (** errors thrown out of an event listener *)
  uncaught : list JS.error;
  (** the next closure identity *)
  fresh : nat;
}.

Definition world0 : World :=
  {| instance := None; listeners := []; calls := []; uncaught := [];
     fresh := 0%nat |}.

Definition with_instance (w : World) (i : Instance) : World :=
  {| instance := Some i; listeners := listeners w; calls := calls w;
     uncaught := uncaught w; fresh := fresh w |}.

Definition with_calls (w : World) (cs : list call) : World :=
  {| instance := instance w; listeners := listeners w;
     calls := calls w ++ cs; uncaught := uncaught w; fresh := fresh w |}.

Definition with_uncaught (w : World) (e : JS.error) : World :=
  {| instance := instance w; listeners := listeners w; calls := calls w;
     uncaught := uncaught w ++ [e]; fresh := fresh w |}.

(** First render, commit, and first run of the effect.  Nothing happens
    when an instance is mounted already. *)
Definition mount (p : Props) (w : World) : World :=
  match instance w with
  | Some _ => w
  | None =>
      let h := fresh w in
      let (ls, c) := effect (showHelp p) h (listeners w) in
      {| instance := Some {| props := p;
                             helpShowing := false;
                             helpContainerRef := commit p false;
                             handler := h;
                             cleanup := c |};
         listeners := ls; calls := calls w; uncaught := uncaught w;
         fresh := S h |}
  end.

(** A render with new properties, commit, and the effect when its
    dependency [showHelp] changed: cleanup of the previous run, then the
    body with the closure of this render. *)
Definition update (p : Props) (w : World) : World :=
  match instance w with
  | None => w
  | Some i =>
      let h := S (handler i) in
      let (ls, c) :=
        if same_dep (showHelp (props i)) (showHelp p)
        then (listeners w, cleanup i)
        else effect (showHelp p) h (run_cleanup (cleanup i) (listeners w)) in
      {| instance := Some {| props := p;
                             helpShowing := helpShowing i;
                             helpContainerRef := commit p (helpShowing i);
                             handler := h;
                             cleanup := c |};
         listeners := ls; calls := calls w; uncaught := uncaught w;
         fresh := fresh w |}
  end.

(** Tear down: the cleanup of the last run of the effect. *)
Definition unmount (w : World) : World :=
  match instance w with
  | None => w
  | Some i =>
      {| instance := None;
         listeners := run_cleanup (cleanup i) (listeners w);
         calls := calls w; uncaught := uncaught w;
         fresh := S (handler i) |}
  end.

(** One registered closure is called with a click on [t].  All closures
    of an instance share its ref and its state setter; the ref of an
    instance that is gone was reset to null. *)
Definition deliver (t : target) (w : World) : World :=
  match instance w with
  | Some i =>
      match handleDocumentClick i t with
      | JS.Normal i' => with_instance w i'
      | JS.Throw e => with_uncaught w e
      end
  | None =>
      match current_contains None t with
      | JS.Normal _ => w
      | JS.Throw e => with_uncaught w e
      end
  end.

(** A click reaches [document]: every listener registered at that moment
    is called. *)
Definition dispatch_click (t : target) (w : World) : World :=
  fold_left (fun w' _ => deliver t w') (listeners w) w.

Inductive event : Type :=
| Mount (p : Props)
| Update (p : Props)
| Unmount
| SliderChange (value : Q)
| FitMouseDown
| HelpMouseDown
| DocumentClick (t : target).

Definition step (w : World) (e : event) : World :=
  match e with
  | Mount p => mount p w
  | Update p => update p w
  | Unmount => unmount w
  | SliderChange v =>
      match instance w with
      | Some i => with_calls w (zoom (props i) v)
      | None => w
      end
  | FitMouseDown =>
      match instance w with
      | Some _ => with_calls w [ZoomToFit]
      | None => w
      end
  | HelpMouseDown =>
      match instance w with
      | Some i =>
          if has_class "help-button" (render (props i) (helpShowing i))
          then with_instance w (helpButtonMouseDown i)
          else w
      | None => w
      end
  | DocumentClick t => dispatch_click t w
  end.

Definition run (es : list event) : World := fold_left step es world0.

(** The help overlay is open. *)
Definition is_open (w : World) : bool :=
  match instance w with
  | Some i => helpShowing i
  | None => false
  end.

(** A closure of the component listens on [document]. *)
Definition listening (w : World) : bool :=
  match listeners w with
  | [] => false
  | _ :: _ => true
  end.


(** The listeners a pending cleanup accounts for. *)
Definition owed (c : option nat) : list nat :=
  match c with
  | Some h => [h]
  | None => []
  end.

Definition pending (c : option nat) : bool :=
  match c with
  | Some _ => true
  | None => false
  end.

(** What holds of the component between any two events: the ref is set
    exactly while [showHelp] is on, and so is the one listener, which the
    pending cleanup will remove. *)
Definition consistent (w : World) : Prop :=
  match instance w with
  | None => listeners w = []
  | Some i =>
      helpContainerRef i
        = (if on (showHelp (props i)) then Some [2%nat] else None)
      /\ listeners w = owed (cleanup i)
      /\ pending (cleanup i) = on (showHelp (props i))
  end.

(** *** Sample properties *)

Definition help_props : Props :=
  {| maxZoom := Some 2; minZoom := Some 1; zoomLevel := 3 # 2;
     showHelp := Some true; allowMultiSelect := None |}.

Definition plain_props : Props :=
  {| maxZoom := Some 2; minZoom := Some 1; zoomLevel := 3 # 2;
     showHelp := Some false; allowMultiSelect := None |}.

(** The instance after [help_props] was mounted, and after the help
    button was then pressed; the instance after [plain_props] was
    mounted. *)
Definition closed_help : Instance :=
  {| props := help_props; helpShowing := false;
     helpContainerRef := Some [2%nat]; handler := 0; cleanup := Some 0%nat |}.

Definition open_help : Instance :=
  {| props := help_props; helpShowing := true;
     helpContainerRef := Some [2%nat]; handler := 1; cleanup := Some 0%nat |}.

Definition closed_plain : Instance :=
  {| props := plain_props; helpShowing := false;
     helpContainerRef := None; handler := 0; cleanup := None |}.

(** ** Properties of the zoom-range mapper *)

Lemma steps_pos : 0 < steps SLIDER_STEPS.
Proof. unfold steps, Qlt; simpl; lia. Qed.

Lemma steps_nonzero : ~ steps SLIDER_STEPS == 0.
Proof. pose proof steps_pos; lra. Qed.

Lemma truthy_false_iff (x : Q) : JS.truthy x = false <-> x == 0.
Proof.
  unfold JS.truthy; rewrite negb_false_iff; apply Qeq_bool_iff.
Qed.

Lemma or_zero (x : Q) : JS.or x 0 == x.
Proof.
  unfold JS.or; destruct (JS.truthy x) eqn:E; [reflexivity|].
  apply truthy_false_iff in E; symmetry; exact E.
Qed.

Lemma le_iff (x y : Q) : JS.le x y = true <-> x <= y.
Proof. apply Qle_bool_iff. Qed.

Lemma in_range_iff (z lo hi : Q) :
  in_range z lo hi = true <-> lo <= z /\ z <= hi.
Proof.
  unfold in_range, JS.ge; rewrite andb_true_iff, !le_iff, !or_zero; tauto.
Qed.

Lemma in_range_plain_iff (z lo hi : Q) :
  in_range_plain z lo hi = true <-> lo <= z /\ z <= hi.
Proof.
  unfold in_range_plain; rewrite andb_true_iff, !le_iff; tauto.
Qed.

Lemma sliderToZoom_toSlider (p lo hi : Q) :
  lo < hi ->
  toSlider SLIDER_STEPS (sliderToZoom SLIDER_STEPS p lo hi) lo hi == p.
Proof.
  intros H; unfold toSlider, sliderToZoom.
  field; split; [apply steps_nonzero | lra].
Qed.

(** Boundary mapping, section 8 of the specification. *)
Lemma toSlider_min (lo hi : Q) :
  lo < hi -> toSlider SLIDER_STEPS lo lo hi == 0.
Proof. intros H; unfold toSlider; field; lra. Qed.

Lemma toSlider_max (lo hi : Q) :
  lo < hi -> toSlider SLIDER_STEPS hi lo hi == steps SLIDER_STEPS.
Proof. intros H; unfold toSlider; field; lra. Qed.

Lemma toSlider_sliderToZoom_inverse (z lo hi : Q) :
  lo < hi ->
  sliderToZoom SLIDER_STEPS (toSlider SLIDER_STEPS z lo hi) lo hi == z.
Proof.
  intros H; unfold toSlider, sliderToZoom.
  field; split; [lra | apply steps_nonzero].
Qed.

Lemma sliderToZoom_ext (p p' lo lo' hi hi' : Q) :
  p == p' -> lo == lo' -> hi == hi' ->
  sliderToZoom SLIDER_STEPS p lo hi == sliderToZoom SLIDER_STEPS p' lo' hi'.
Proof.
  intros Hp Hl Hh; unfold sliderToZoom; rewrite Hp, Hl, Hh; reflexivity.
Qed.

(** C8.  For every slider position [p] and bounds [lo < hi], the inverse
    map of the source, [sliderToZoom], returns exactly
    [(p * (hi - lo)) / STEPS + lo], which is the map of the
    specification; and it is a function of its arguments alone: equal
    numbers give equal results, and nothing but the result is produced. *)
Theorem sliderToZoom_inverse_linear_map (p lo hi : Q) :
  lo < hi ->
  sliderToZoom SLIDER_STEPS p lo hi
    = (p * (hi - lo)) / inject_Z (Zpos SLIDER_STEPS) + lo
  /\ sliderToZoom SLIDER_STEPS p lo hi = toZoom_spec SLIDER_STEPS p lo hi
  /\ (forall p' lo' hi' : Q,
        p == p' -> lo == lo' -> hi == hi' ->
        sliderToZoom SLIDER_STEPS p lo hi
          == sliderToZoom SLIDER_STEPS p' lo' hi').
Proof.
  intros _; repeat split.
  intros p' lo' hi'; apply sliderToZoom_ext.
Qed.

(** C5.  For every integer [p] in [0 .. STEPS] and bounds [lo < hi], the
    forward map applied to the inverse map gives [p] back. *)
Theorem toSlider_sliderToZoom_round_trip (p : Z) (lo hi : Q) :
  (0 <= p <= Zpos SLIDER_STEPS)%Z ->
  lo < hi ->
  toSlider SLIDER_STEPS (sliderToZoom SLIDER_STEPS (inject_Z p) lo hi) lo hi
    == inject_Z p.
Proof.
  intros _; apply sliderToZoom_toSlider.
Qed.

(** C10.  For bounds [lo < hi], the gate as written, with its [|| 0]
    fallbacks, decides exactly the plain check [lo <= z <= hi]: the
    fallback stands for the same number as the bound, and it differs
    from the bound only when the bound is zero. *)
Theorem in_range_is_plain_check (z lo hi : Q) :
  lo < hi ->
  in_range z lo hi = in_range_plain z lo hi
  /\ JS.or lo 0 == lo /\ JS.or hi 0 == hi
  /\ (forall b : Q, JS.or b 0 <> b -> b == 0).
Proof.
  intros _; split; [|split; [|split]].
  - apply eq_true_iff_eq; rewrite in_range_iff, in_range_plain_iff; tauto.
  - apply or_zero.
  - apply or_zero.
  - intros b Hb; apply truthy_false_iff.
    unfold JS.or in Hb; destruct (JS.truthy b); congruence.
Qed.

(** ** Properties of the zoom handler *)

Lemma with_calls_nil (w : World) : with_calls w [] = w.
Proof. destruct w; unfold with_calls; simpl; rewrite app_nil_r; reflexivity. Qed.

(** C3.  A slider change whose position maps to a zoom value strictly
    outside [[lo, hi]] (bounds [lo < hi]) makes no call to [modifyZoom],
    raises nothing and leaves every part of the state as it was. *)
Theorem zoom_out_of_range_is_noop (w : World) (i : Instance) (v : Q) :
  instance w = Some i ->
  minZoom_of (props i) < maxZoom_of (props i) ->
  sliderToZoom SLIDER_STEPS v (minZoom_of (props i)) (maxZoom_of (props i))
    < minZoom_of (props i)
  \/ maxZoom_of (props i)
     < sliderToZoom SLIDER_STEPS v (minZoom_of (props i)) (maxZoom_of (props i)) ->
  zoom (props i) v = [] /\ step w (SliderChange v) = w.
Proof.
  intros Hi _ Hout.
  assert (Hz : zoom (props i) v = []).
  { unfold zoom.
    destruct (in_range _ _ _) eqn:E; [|reflexivity].
    apply in_range_iff in E; lra. }
  split; [exact Hz|].
  simpl; rewrite Hi, Hz; apply with_calls_nil.
Qed.

(** C4.  A slider change whose position maps to a zoom value [z] inside
    [[lo, hi]] (bounds [lo < hi]) calls [modifyZoom] exactly once, with
    [delta = z - zoomLevel] where [z = sliderToZoom v lo hi]; nothing else
    changes. *)
Theorem zoom_in_range_forwards_delta (w : World) (i : Instance) (v : Q) :
  instance w = Some i ->
  minZoom_of (props i) < maxZoom_of (props i) ->
  minZoom_of (props i)
    <= sliderToZoom SLIDER_STEPS v (minZoom_of (props i)) (maxZoom_of (props i))
    <= maxZoom_of (props i) ->
  let z :=
    sliderToZoom SLIDER_STEPS v (minZoom_of (props i)) (maxZoom_of (props i)) in
  zoom (props i) v = [ModifyZoom (z - zoomLevel (props i))]
  /\ step w (SliderChange v)
     = with_calls w [ModifyZoom (z - zoomLevel (props i))].
Proof.
  intros Hi _ Hin z.
  assert (Hz : zoom (props i) v = [ModifyZoom (z - zoomLevel (props i))]).
  { unfold zoom; fold z.
    destruct (in_range _ _ _) eqn:E; [reflexivity|].
    assert (in_range z (minZoom_of (props i)) (maxZoom_of (props i)) = true)
      by (apply in_range_iff; exact Hin).
    congruence. }
  split; [exact Hz|].
  simpl; rewrite Hi, Hz; reflexivity.
Qed.

(** ** Properties of the component *)

Lemma commit_on (p : Props) (showing : bool) :
  commit p showing = if on (showHelp p) then Some [2%nat] else None.
Proof.
  unfold commit, render; destruct (on (showHelp p)); reflexivity.
Qed.

Lemma help_button_rendered (p : Props) (showing : bool) :
  has_class "help-button" (render p showing) = on (showHelp p).
Proof.
  unfold render;
    destruct (on (showHelp p)), showing, (on (allowMultiSelect p));
    reflexivity.
Qed.

Lemma setHelpShowing_props b i : props (setHelpShowing b i) = props i.
Proof. unfold setHelpShowing; destruct (Bool.eqb _ _); reflexivity. Qed.

Lemma setHelpShowing_cleanup b i : cleanup (setHelpShowing b i) = cleanup i.
Proof. unfold setHelpShowing; destruct (Bool.eqb _ _); reflexivity. Qed.

Lemma setHelpShowing_value b i : helpShowing (setHelpShowing b i) = b.
Proof.
  unfold setHelpShowing; destruct (Bool.eqb b (helpShowing i)) eqn:E;
    [apply eqb_prop in E; congruence | reflexivity].
Qed.

Lemma setHelpShowing_ref b i :
  helpContainerRef i = commit (props i) (helpShowing i) ->
  helpContainerRef (setHelpShowing b i) = helpContainerRef i.
Proof.
  intros H; unfold setHelpShowing; destruct (Bool.eqb _ _); [reflexivity|].
  simpl; rewrite H, !commit_on; reflexivity.
Qed.

Lemma consistent_with_instance w i i' :
  instance w = Some i ->
  props i' = props i -> cleanup i' = cleanup i ->
  helpContainerRef i' = helpContainerRef i ->
  consistent w -> consistent (with_instance w i').
Proof.
  unfold consistent; intros Hi Hp Hc Hr; rewrite Hi; simpl.
  rewrite Hp, Hc, Hr; trivial.
Qed.

Lemma consistent_setHelpShowing w i b :
  instance w = Some i -> consistent w ->
  consistent (with_instance w (setHelpShowing b i)).
Proof.
  intros Hi Hw; apply (consistent_with_instance w i); trivial.
  - apply setHelpShowing_props.
  - apply setHelpShowing_cleanup.
  - apply setHelpShowing_ref.
    unfold consistent in Hw; rewrite Hi in Hw; destruct Hw as [-> _].
    symmetry; apply commit_on.
Qed.

Create HintDb component.

#[local] Hint Resolve consistent_setHelpShowing : component.

Lemma same_dep_eq (a b : option bool) : same_dep a b = true -> a = b.
Proof.
  destruct a as [[|]|], b as [[|]|]; simpl; congruence.
Qed.

Lemma run_cleanup_owed (c : option nat) : run_cleanup c (owed c) = [].
Proof.
  destruct c as [h|]; simpl; [|reflexivity].
  destruct (Nat.eq_dec h h); [reflexivity | congruence].
Qed.

Lemma effect_fresh (show : option bool) (h : nat) :
  effect show h [] = if on show then ([h], Some h) else ([], None).
Proof. unfold effect; destruct (on show); reflexivity. Qed.

Lemma consistent_world0 : consistent world0.
Proof. reflexivity. Qed.

Lemma consistent_mount p w : consistent w -> consistent (mount p w).
Proof.
  unfold mount; destruct (instance w) eqn:Hi; [trivial|].
  unfold consistent at 1; rewrite Hi; intros ->.
  rewrite effect_fresh; unfold consistent.
  destruct (on (showHelp p)) eqn:E; simpl; rewrite commit_on, E; auto.
Qed.

Lemma consistent_update p w : consistent w -> consistent (update p w).
Proof.
  unfold update; destruct (instance w) as [i|] eqn:Hi; [|trivial].
  unfold consistent at 1; rewrite Hi; intros (Hr & Hl & Hp).
  destruct (same_dep (showHelp (props i)) (showHelp p)) eqn:D.
  - apply same_dep_eq in D; unfold consistent; simpl.
    rewrite commit_on, <- D; auto.
  - rewrite Hl, run_cleanup_owed, effect_fresh; unfold consistent.
    destruct (on (showHelp p)) eqn:E; simpl; rewrite commit_on, E; auto.
Qed.

Lemma consistent_unmount w : consistent w -> consistent (unmount w).
Proof.
  unfold unmount; destruct (instance w) as [i|] eqn:Hi; [|trivial].
  unfold consistent at 1; rewrite Hi; intros (_ & Hl & _).
  unfold consistent; simpl; rewrite Hl; apply run_cleanup_owed.
Qed.

Lemma consistent_with_calls w cs : consistent w -> consistent (with_calls w cs).
Proof. trivial. Qed.

Lemma consistent_with_uncaught w e :
  consistent w -> consistent (with_uncaught w e).
Proof. trivial. Qed.

#[local] Hint Resolve consistent_mount consistent_update consistent_unmount
  consistent_with_calls consistent_with_uncaught : component.

Lemma consistent_deliver t w : consistent w -> consistent (deliver t w).
Proof.
  intros Hw; unfold deliver; destruct (instance w) as [i|] eqn:Hi.
  - unfold handleDocumentClick.
    destruct (helpContainerRef i) as [c|]; simpl; [|auto with component].
    destruct (negb (contains c t)); [auto with component|].
    apply (consistent_with_instance w i); trivial.
  - simpl; auto with component.
Qed.

Lemma listeners_deliver t w : listeners (deliver t w) = listeners w.
Proof.
  unfold deliver; destruct (instance w) as [i|].
  - destruct (handleDocumentClick i t); reflexivity.
  - reflexivity.
Qed.

Lemma consistent_deliver_all t (l : list nat) w :
  consistent w -> consistent (fold_left (fun w' _ => deliver t w') l w).
Proof.
  revert w; induction l as [|h l IH]; intros w Hw; simpl; [trivial|].
  apply IH, consistent_deliver; trivial.
Qed.

Lemma consistent_step w e : consistent w -> consistent (step w e).
Proof.
  intros Hw; destruct e; cbn [step]; auto with component.
  - destruct (instance w); auto with component.
  - destruct (instance w); auto with component.
  - destruct (instance w) as [i|] eqn:Hi; [|trivial].
    rewrite help_button_rendered; destruct (on (showHelp (props i)));
      unfold helpButtonMouseDown; auto with component.
  - apply consistent_deliver_all; trivial.
Qed.

Lemma consistent_from w es :
  consistent w -> consistent (fold_left step es w).
Proof.
  revert w; induction es as [|e es IH]; intros w Hw; simpl; [trivial|].
  apply IH, consistent_step; trivial.
Qed.

Lemma consistent_run es : consistent (run es).
Proof. apply consistent_from, consistent_world0. Qed.

(** What [consistent] says of the instance [i] of [run es]. *)
Ltac consistent_at es i Hi :=
  let H := fresh "H" in
  pose proof (consistent_run es) as H; unfold consistent in H;
  rewrite Hi in H;
  let Hr := fresh "Hr" in
  let Hl := fresh "Hl" in
  let Hp := fresh "Hp" in
  destruct H as (Hr & Hl & Hp).


Lemma help_container_rendered (p : Props) (showing : bool) :
  has_class "help-container" (render p showing) = on (showHelp p).
Proof.
  unfold render;
    destruct (on (showHelp p)), showing, (on (allowMultiSelect p));
    reflexivity.
Qed.

Lemma help_menu_rendered (p : Props) (showing : bool) :
  has_class "help-menu" (render p showing) = on (showHelp p) && showing.
Proof.
  unfold render;
    destruct (on (showHelp p)), showing, (on (allowMultiSelect p));
    reflexivity.
Qed.

Lemma listening_iff (w : World) : listening w = true <-> listeners w <> [].
Proof.
  unfold listening; destruct (listeners w); split; congruence.
Qed.

(** Between events, a listener is registered exactly while the component
    is mounted with [showHelp] on. *)
Lemma listening_run (es : list event) :
  listening (run es)
  = match instance (run es) with
    | Some i => on (showHelp (props i))
    | None => false
    end.
Proof.
  pose proof (consistent_run es) as H; unfold consistent in H.
  unfold listening; destruct (instance (run es)) as [i|].
  - destruct H as (_ & -> & <-); destruct (cleanup i); reflexivity.
  - rewrite H; reflexivity.
Qed.

Lemma handleDocumentClick_anchor (i : Instance) (t : target) (c : path) :
  helpContainerRef i = Some c ->
  handleDocumentClick i t
  = JS.Normal (if contains c t then i else setHelpShowing false i).
Proof.
  intros H; unfold handleDocumentClick; rewrite H; simpl.
  destruct (contains c t); reflexivity.
Qed.

Lemma handleDocumentClick_no_anchor (i : Instance) (t : target) :
  helpContainerRef i = None ->
  exists e, handleDocumentClick i t = JS.Throw e.
Proof.
  intros H; unfold handleDocumentClick; rewrite H; simpl; eauto.
Qed.

Lemma handleDocumentClick_closes (i i' : Instance) (t : target) :
  handleDocumentClick i t = JS.Normal i' ->
  helpShowing i' = true ->
  helpShowing i = true
  /\ exists c, helpContainerRef i = Some c /\ contains c t = true.
Proof.
  destruct (helpContainerRef i) as [c|] eqn:Hr.
  - rewrite (handleDocumentClick_anchor i t c Hr).
    destruct (contains c t) eqn:Hc; intros [= <-] Hs.
    + eauto.
    + rewrite setHelpShowing_value in Hs; discriminate.
  - destruct (handleDocumentClick_no_anchor i t Hr) as [e ->]; discriminate.
Qed.

Lemma is_open_deliver (t : target) (w : World) :
  is_open (deliver t w) = true -> is_open w = true.
Proof.
  unfold deliver, is_open; destruct (instance w) as [i|] eqn:Hi.
  - destruct (handleDocumentClick i t) as [i'|e] eqn:Hh; simpl.
    + intros Hs; apply (handleDocumentClick_closes i i' t Hh Hs).
    + rewrite Hi; trivial.
  - simpl; rewrite Hi; trivial.
Qed.

Lemma is_open_deliver_all (t : target) (l : list nat) (w : World) :
  is_open (fold_left (fun w' _ => deliver t w') l w) = true ->
  is_open w = true.
Proof.
  revert w; induction l as [|h l IH]; intros w; simpl; [trivial|].
  intros H; apply (is_open_deliver t), IH, H.
Qed.

Lemma is_open_dispatch_click (t : target) (w : World) :
  is_open (dispatch_click t w) = true -> is_open w = true.
Proof. apply is_open_deliver_all. Qed.

Lemma listeners_dispatch_click (t : target) (w : World) :
  listeners (dispatch_click t w) = listeners w.
Proof.
  unfold dispatch_click; generalize (listeners w) at 1.
  intros l; revert w; induction l as [|h l IH]; intros w; simpl;
    [reflexivity|].
  rewrite IH; apply listeners_deliver.
Qed.

(** While [showHelp] is on, a click is handled by one closure. *)
Lemma dispatch_click_run (es : list event) (i : Instance) (t : target) :
  instance (run es) = Some i ->
  on (showHelp (props i)) = true ->
  helpContainerRef i = Some [2%nat]
  /\ dispatch_click t (run es) = deliver t (run es).
Proof.
  intros Hi Hon; consistent_at es i Hi; rewrite Hon in *.
  split; [exact Hr|].
  unfold dispatch_click; rewrite Hl.
  destruct (cleanup i); [reflexivity | discriminate].
Qed.

(** C6.  While the help panel is open, a click that reaches the document
    closes it when its target is not contained in the anchor (the help
    container), and leaves it open when the target is contained. *)
Theorem document_click_while_open (es : list event) (i : Instance) (t : target) :
  instance (run es) = Some i ->
  on (showHelp (props i)) = true ->
  helpShowing i = true ->
  exists c,
    helpContainerRef i = Some c
    /\ (contains c t = false ->
        is_open (step (run es) (DocumentClick t)) = false)
    /\ (contains c t = true ->
        is_open (step (run es) (DocumentClick t)) = true).
Proof.
  intros Hi Hon Hs.
  destruct (dispatch_click_run es i t Hi Hon) as [Hr Hd].
  exists [2%nat]; split; [exact Hr|].
  cbn [step]; rewrite Hd; unfold deliver; rewrite Hi.
  rewrite (handleDocumentClick_anchor i t _ Hr).
  split; intros ->; unfold is_open; simpl.
  - apply setHelpShowing_value.
  - exact Hs.
Qed.

(** C9.  The document-click handler only ever closes the panel: when it
    has run, the panel is open only if it was open before and the target
    was inside the anchor; and after any history of events, a click on
    the document never takes the component from closed to open. *)
Theorem document_click_only_closes :
  (forall (i i' : Instance) (t : target),
      handleDocumentClick i t = JS.Normal i' ->
      helpShowing i' = true ->
      helpShowing i = true
      /\ exists c, helpContainerRef i = Some c /\ contains c t = true)
  /\ (forall (es : list event) (t : target),
        is_open (step (run es) (DocumentClick t)) = true ->
        is_open (run es) = true).
Proof.
  split.
  - apply handleDocumentClick_closes.
  - intros es t; apply is_open_dispatch_click.
Qed.

(** C7.  After any history of events, while [showHelp] is off no listener
    is registered on the document, the ref is unset, neither the help
    container, the help button nor the help menu is rendered, and
    neither a press of the help button nor a click on the document does
    anything. *)
Theorem showHelp_off_no_controller (es : list event) (i : Instance) :
  instance (run es) = Some i ->
  on (showHelp (props i)) = false ->
  listeners (run es) = []
  /\ helpContainerRef i = None
  /\ has_class "help-container" (render (props i) (helpShowing i)) = false
  /\ has_class "help-button" (render (props i) (helpShowing i)) = false
  /\ has_class "help-menu" (render (props i) (helpShowing i)) = false
  /\ step (run es) HelpMouseDown = run es
  /\ (forall t, step (run es) (DocumentClick t) = run es).
Proof.
  intros Hi Hoff; consistent_at es i Hi; rewrite Hoff in *.
  assert (Hn : listeners (run es) = []).
  { rewrite Hl; destruct (cleanup i); [discriminate | reflexivity]. }
  rewrite help_container_rendered, help_button_rendered, help_menu_rendered.
  rewrite Hoff; repeat split; trivial.
  - cbn [step]; rewrite Hi, help_button_rendered, Hoff; reflexivity.
  - intros t; cbn [step]; unfold dispatch_click; rewrite Hn; reflexivity.
Qed.

(** C1, as the code has it.  After any history of events the click
    listener is registered exactly while the component is mounted with
    [showHelp] on, whether the panel is open or closed: pressing the help
    button and clicking on the document leave the registration as it is.
    A click that arrives while the panel is closed leaves it closed. *)
Theorem listener_follows_showHelp (es : list event) :
  listening (run es)
  = match instance (run es) with
    | Some i => on (showHelp (props i))
    | None => false
    end
  /\ listeners (step (run es) HelpMouseDown) = listeners (run es)
  /\ (forall t, listeners (step (run es) (DocumentClick t)) = listeners (run es))
  /\ (forall t, is_open (run es) = false ->
                is_open (step (run es) (DocumentClick t)) = false).
Proof.
  split; [apply listening_run|]; split; [|split].
  - cbn [step]; destruct (instance (run es)) as [i|]; [|reflexivity].
    destruct (has_class _ _); reflexivity.
  - intros t; apply listeners_dispatch_click.
  - intros t Hc.
    destruct (is_open (step (run es) (DocumentClick t))) eqn:E; [|reflexivity].
    apply is_open_dispatch_click in E; congruence.
Qed.

(** The handler has no guard of its own: called with the anchor reference
    missing it throws a [TypeError] before it touches the state.  The
    component never lets that happen: with the reference missing no
    closure is registered. *)
Lemma missing_anchor_throws (w : World) (i : Instance) (t : target) :
  instance w = Some i ->
  helpContainerRef i = None ->
  (exists e,
      handleDocumentClick i t = JS.Throw e
      /\ deliver t w = with_uncaught w e)
  /\ instance (deliver t w) = Some i
  /\ (forall es, w = run es -> listeners w = []).
Proof.
  intros Hi Hr.
  destruct (handleDocumentClick_no_anchor i t Hr) as [e He].
  assert (Hd : deliver t w = with_uncaught w e)
    by (unfold deliver; rewrite Hi, He; reflexivity).
  split; [eauto|]; split; [rewrite Hd; exact Hi|].
  intros es ->; consistent_at es i Hi.
  destruct (on (showHelp (props i))); [congruence|].
  rewrite Hl; destruct (cleanup i); [discriminate | reflexivity].
Qed.



(** ** Further properties of the zoom handler *)



Lemma zoom_cases (p : Props) (v : Q) :
  let z := sliderToZoom SLIDER_STEPS v (minZoom_of p) (maxZoom_of p) in
  (minZoom_of p <= z <= maxZoom_of p
   /\ zoom p v = [ModifyZoom (z - zoomLevel p)])
  \/ (~ minZoom_of p <= z <= maxZoom_of p /\ zoom p v = []).
Proof.
  intros z; unfold zoom; fold z.
  destruct (in_range z (minZoom_of p) (maxZoom_of p)) eqn:E.
  - left; split; [apply in_range_iff; exact E | reflexivity].
  - right; split; [|reflexivity].
    intros H; apply in_range_iff in H; congruence.
Qed.

(** X1.  Whatever the bounds and the slider value, [zoom] makes at most one
    call; when it makes one, the level [z] that the slider value maps to
    lies inside [[minZoom, maxZoom]] and the call is
    [modifyZoom (z - zoomLevel)]. *)
Theorem zoom_calls_only_in_range (p : Props) (v : Q) (c : call) :
  In c (zoom p v) ->
  zoom p v = [c]
  /\ c = ModifyZoom
          (sliderToZoom SLIDER_STEPS v (minZoom_of p) (maxZoom_of p)
           - zoomLevel p)
  /\ minZoom_of p
     <= sliderToZoom SLIDER_STEPS v (minZoom_of p) (maxZoom_of p)
     <= maxZoom_of p.
Proof.
  destruct (zoom_cases p v) as [[Hz ->]|[_ ->]]; simpl; [|tauto].
  intros [<-|[]]; auto.
Qed.

(** X2.  With the bounds the wrong way round ([maxZoom < minZoom]) no
    slider value ever leads to a call of [modifyZoom]. *)
Theorem zoom_inverted_bounds_never_calls (p : Props) (v : Q) :
  maxZoom_of p < minZoom_of p -> zoom p v = [].
Proof.
  intros Hb; destruct (zoom_cases p v) as [[Hz _]|[_ H]]; [|exact H].
  destruct Hz; lra.
Qed.

(** X3.  With equal bounds every slider value leads to one call, which
    asks for the level [minZoom]: [delta] is [minZoom - zoomLevel]
    whatever the slider reports. *)
Theorem zoom_equal_bounds_asks_for_min (p : Props) (v : Q) :
  minZoom_of p == maxZoom_of p ->
  exists delta,
    zoom p v = [ModifyZoom delta] /\ delta == minZoom_of p - zoomLevel p.
Proof.
  intros Hb.
  assert (Hz : sliderToZoom SLIDER_STEPS v (minZoom_of p) (maxZoom_of p)
               == minZoom_of p).
  { unfold sliderToZoom; rewrite <- Hb; field; apply steps_nonzero. }
  destruct (zoom_cases p v) as [[_ ->]|[H _]].
  - eexists; split; [reflexivity|]; rewrite Hz; reflexivity.
  - exfalso; apply H; rewrite Hz; split; lra.
Qed.



(** ** Further properties of the component *)

Lemma run_snoc (es : list event) (e : event) :
  run (es ++ [e]) = step (run es) e.
Proof. unfold run; rewrite fold_left_app; reflexivity. Qed.

Lemma step_help_button (w : World) (i : Instance) :
  instance w = Some i ->
  on (showHelp (props i)) = true ->
  step w HelpMouseDown = with_instance w (helpButtonMouseDown i).
Proof.
  intros Hi Hon; cbn [step]; rewrite Hi, help_button_rendered, Hon.
  reflexivity.
Qed.

Lemma helpButtonMouseDown_props i :
  props (helpButtonMouseDown i) = props i.
Proof. apply setHelpShowing_props. Qed.

Lemma helpButtonMouseDown_value i :
  helpShowing (helpButtonMouseDown i) = negb (helpShowing i).
Proof. apply setHelpShowing_value. Qed.

Lemma deliver_anchor (t : target) (w : World) (i : Instance) (c : path) :
  instance w = Some i ->
  helpContainerRef i = Some c ->
  deliver t w
  = with_instance w (if contains c t then i else setHelpShowing false i).
Proof.
  intros Hi Hr; unfold deliver.
  rewrite Hi, (handleDocumentClick_anchor i t c Hr); reflexivity.
Qed.




Lemma calls_deliver (t : target) (w : World) :
  calls (deliver t w) = calls w.
Proof.
  unfold deliver; destruct (instance w) as [i|].
  - destruct (handleDocumentClick i t); reflexivity.
  - reflexivity.
Qed.

Lemma calls_dispatch_click (t : target) (w : World) :
  calls (dispatch_click t w) = calls w.
Proof.
  unfold dispatch_click; generalize (listeners w) at 1.
  intros l; revert w; induction l as [|h l IH]; intros w; simpl;
    [reflexivity|].
  rewrite IH; apply calls_deliver.
Qed.

Lemma update_instance (p : Props) (w : World) (i : Instance) :
  instance w = Some i ->
  exists i',
    instance (update p w) = Some i'
    /\ props i' = p /\ helpShowing i' = helpShowing i.
Proof.
  intros Hi; unfold update; rewrite Hi.
  destruct (if same_dep _ _ then _ else _); simpl; eauto.
Qed.

(** X6.  After any history of events at most one closure of the component
    is registered on the document, and it is the one that the pending
    cleanup removes: renders never pile up listeners. *)
Theorem at_most_one_listener (es : list event) :
  (List.length (listeners (run es)) <= 1)%nat
  /\ listeners (run es)
     = match instance (run es) with
       | Some i => owed (cleanup i)
       | None => []
       end.
Proof.
  pose proof (consistent_run es) as H; unfold consistent in H.
  destruct (instance (run es)) as [i|].
  - destruct H as (_ & -> & _); split; [|reflexivity].
    destruct (cleanup i); simpl; lia.
  - rewrite H; split; [simpl; lia | reflexivity].
Qed.

(** X7.  Tearing the component down after any history of events, with the
    panel open or closed, leaves no listener on the document. *)
Theorem unmount_leaves_no_listener (es : list event) :
  listeners (step (run es) Unmount) = []
  /\ instance (step (run es) Unmount) = None.
Proof.
  assert (Hn : instance (step (run es) Unmount) = None).
  { cbn [step]; unfold unmount.
    destruct (instance (run es)) eqn:Hi; [reflexivity | exact Hi]. }
  split; [|exact Hn].
  pose proof (consistent_step _ Unmount (consistent_run es)) as H.
  unfold consistent in H; rewrite Hn in H; exact H.
Qed.


(** X9.  While [showHelp] is on, pressing the help button flips the panel,
    and pressing it twice brings the panel back to where it was, with the
    same listeners. *)
Theorem help_button_twice (es : list event) (i : Instance) :
  instance (run es) = Some i ->
  on (showHelp (props i)) = true ->
  is_open (step (run es) HelpMouseDown) = negb (helpShowing i)
  /\ is_open (step (step (run es) HelpMouseDown) HelpMouseDown)
     = helpShowing i
  /\ listeners (step (step (run es) HelpMouseDown) HelpMouseDown)
     = listeners (run es).
Proof.
  intros Hi Hon.
  rewrite (step_help_button _ i Hi Hon).
  rewrite (step_help_button _ (helpButtonMouseDown i));
    [|reflexivity | rewrite helpButtonMouseDown_props; exact Hon].
  unfold is_open; simpl.
  rewrite !helpButtonMouseDown_value, negb_involutive; auto.
Qed.

(** X10.  While [showHelp] is on, the click that follows a press of the
    help button, targeted at the help container or below it, does not
    undo the press: the panel stays flipped. *)
Theorem help_button_click_keeps_flip
  (es : list event) (i : Instance) (below : path) :
  instance (run es) = Some i ->
  on (showHelp (props i)) = true ->
  is_open (step (step (run es) HelpMouseDown)
                (DocumentClick (Within (2%nat :: below))))
  = negb (helpShowing i).
Proof.
  intros Hi Hon.
  assert (Hi1 : instance (run (es ++ [HelpMouseDown]))
                = Some (helpButtonMouseDown i)).
  { rewrite run_snoc, (step_help_button _ i Hi Hon); reflexivity. }
  assert (Hon1 : on (showHelp (props (helpButtonMouseDown i))) = true)
    by (rewrite helpButtonMouseDown_props; exact Hon).
  destruct (dispatch_click_run _ _ (Within (2%nat :: below)) Hi1 Hon1)
    as [Hr Hd].
  rewrite <- run_snoc; cbn [step]; rewrite Hd.
  rewrite (deliver_anchor _ _ _ _ Hi1 Hr).
  unfold is_open; simpl; apply helpButtonMouseDown_value.
Qed.

(** X11.  The open or closed state survives new properties: after the help
    is switched off and on again the panel is as it was, rendered again
    if it was open, and the listener is back. *)
Theorem help_state_survives_updates
  (es : list event) (i : Instance) (p_off p_on : Props) :
  instance (run es) = Some i ->
  on (showHelp p_on) = true ->
  is_open (step (run es) (Update p_off)) = helpShowing i
  /\ exists i',
      instance (step (step (run es) (Update p_off)) (Update p_on)) = Some i'
      /\ helpShowing i' = helpShowing i
      /\ has_class "help-menu" (render (props i') (helpShowing i'))
         = helpShowing i
      /\ listening (step (step (run es) (Update p_off)) (Update p_on)) = true.
Proof.
  intros Hi Hon; cbn [step].
  destruct (update_instance p_off _ i Hi) as (i1 & Hi1 & _ & Hs1).
  destruct (update_instance p_on _ i1 Hi1) as (i2 & Hi2 & Hp2 & Hs2).
  split; [unfold is_open; rewrite Hi1; exact Hs1|].
  exists i2; split; [exact Hi2|]; split; [congruence|]; split.
  - rewrite help_menu_rendered, Hp2, Hon; simpl; congruence.
  - pose proof (listening_run (es ++ [Update p_off; Update p_on])) as H.
    unfold run in H; rewrite fold_left_app in H; simpl in H.
    fold (run es) in H; rewrite H, Hi2, Hp2; exact Hon.
Qed.

(** X12.  The two halves of the component do not touch each other: a press
    of the help button or a click on the document makes no call to
    [modifyZoom] or [zoomToFit], and a slider change or a press of the fit
    button leaves the instance and the listeners as they are. *)
Theorem zoom_and_help_are_independent (w : World) (t : target) (v : Q) :
  calls (step w HelpMouseDown) = calls w
  /\ calls (step w (DocumentClick t)) = calls w
  /\ instance (step w (SliderChange v)) = instance w
  /\ listeners (step w (SliderChange v)) = listeners w
  /\ instance (step w FitMouseDown) = instance w
  /\ listeners (step w FitMouseDown) = listeners w.
Proof.
  cbn [step]; split; [|split; [apply calls_dispatch_click|]].
  - destruct (instance w) as [i|]; [|reflexivity].
    destruct (has_class _ _); reflexivity.
  - destruct (instance w) as [i|] eqn:Hi; simpl; rewrite ?Hi; repeat split.
Qed.

(** ** Further properties of the rendered tree and of the effect *)

Ltac render_cases p showing :=
  unfold render;
  destruct (on (showHelp p)), showing, (on (allowMultiSelect p));
  reflexivity.

Lemma help_showing_rendered (p : Props) (showing : bool) :
  has_class "help-showing" (render p showing) = on (showHelp p) && showing.
Proof. render_cases p showing. Qed.

Lemma zoom_controls_rendered (p : Props) (showing : bool) :
  has_class "slider" (render p showing) = true
  /\ has_class "slider-button" (render p showing) = true.
Proof. split; render_cases p showing. Qed.

(** X13.  What is rendered: the slider and the fit button always; the help
    container and the help button exactly when [showHelp] is on; the help
    menu, and the class [help-showing] on the button, exactly when
    moreover the panel is open. *)
Theorem render_parts (p : Props) (showing : bool) :
  has_class "slider" (render p showing) = true
  /\ has_class "slider-button" (render p showing) = true
  /\ has_class "help-container" (render p showing) = on (showHelp p)
  /\ has_class "help-button" (render p showing) = on (showHelp p)
  /\ has_class "help-showing" (render p showing) = on (showHelp p) && showing
  /\ has_class "help-menu" (render p showing) = on (showHelp p) && showing.
Proof.
  destruct (zoom_controls_rendered p showing) as [Hs Hb].
  rewrite Hs, Hb, help_container_rendered, help_button_rendered,
    help_showing_rendered, help_menu_rendered.
  repeat split.
Qed.

(** X14.  The help lines: "Create Node:" and "Create Edge:" are shown
    exactly when the menu is, and "Select Multiple Nodes:" exactly when
    moreover [allowMultiSelect] is on. *)
Theorem render_help_lines (p : Props) (showing : bool) :
  has_text "Create Node:" (render p showing) = on (showHelp p) && showing
  /\ has_text "Create Edge:" (render p showing) = on (showHelp p) && showing
  /\ has_text "Select Multiple Nodes:" (render p showing)
     = on (showHelp p) && showing && on (allowMultiSelect p).
Proof. repeat split; render_cases p showing. Qed.

Lemma addEventListener_new (h : nat) (l : list nat) :
  ~ In h l -> addEventListener h l = l ++ [h].
Proof.
  intros Hn; unfold addEventListener.
  destruct (existsb (Nat.eqb h) l) eqn:E; [|reflexivity].
  apply existsb_exists in E; destruct E as (x & Hx & Hh).
  apply Nat.eqb_eq in Hh; subst x; contradiction.
Qed.

Lemma removeEventListener_last (h : nat) (l : list nat) :
  ~ In h l -> removeEventListener h (l ++ [h]) = l.
Proof.
  intros Hn; unfold removeEventListener.
  rewrite remove_app, (notin_remove Nat.eq_dec l h Hn); simpl.
  destruct (Nat.eq_dec h h); [apply app_nil_r | congruence].
Qed.

(** X15.  The effect as a scoped resource: run for a closure that is not
    registered yet, it registers that closure exactly when [showHelp] is
    on, and the cleanup it returns puts the listeners of the document back
    as they were. *)
Theorem effect_then_cleanup (show : option bool) (h : nat) (l : list nat) :
  ~ In h l ->
  (In h (fst (effect show h l)) <-> on show = true)
  /\ run_cleanup (snd (effect show h l)) (fst (effect show h l)) = l.
Proof.
  intros Hn; unfold effect; destruct (on show); simpl.
  - rewrite (addEventListener_new h l Hn), (removeEventListener_last h l Hn).
    split; [|reflexivity].
    split; [reflexivity | intros _; apply in_or_app; right; left; reflexivity].
  - unfold removeEventListener; rewrite (notin_remove Nat.eq_dec l h Hn).
    split; [|reflexivity].
    split; [contradiction | discriminate].
Qed.

End GraphControls.

(** ** The theorems at sample values: 100 steps, bounds 1 and 2 *)

Local Abbreviation steps100 := Sample.steps (only parsing).
Local Abbreviation run100 :=
  (run Sample.steps Sample.max_zoom Sample.min_zoom) (only parsing).
Local Abbreviation step100 :=
  (step Sample.steps Sample.max_zoom Sample.min_zoom) (only parsing).
Local Abbreviation zoom100 :=
  (zoom Sample.steps Sample.max_zoom Sample.min_zoom) (only parsing).
Local Abbreviation handleDocumentClick100 :=
  (handleDocumentClick Sample.steps Sample.max_zoom Sample.min_zoom)
  (only parsing).
Local Abbreviation deliver100 :=
  (deliver Sample.steps Sample.max_zoom Sample.min_zoom) (only parsing).

Lemma sliderToZoom_inverse_linear_map_at_80 :
  1 < 2
  /\ sliderToZoom steps100 80 1 2 = (80 * (2 - 1)) / inject_Z 100 + 1
  /\ sliderToZoom steps100 80 1 2 == 9 # 5.
Proof.
  assert (H : 1 < 2) by reflexivity.
  destruct (sliderToZoom_inverse_linear_map steps100 80 1 2 H) as (E & _ & _).
  split; [exact H|]; split; [exact E|].
  rewrite E; reflexivity.
Defined.

Lemma toSlider_sliderToZoom_round_trip_at_80 :
  (0 <= 80 <= 100)%Z
  /\ 1 < 2
  /\ toSlider steps100 (sliderToZoom steps100 (inject_Z 80) 1 2) 1 2
     == inject_Z 80.
Proof.
  assert (Hp : (0 <= 80 <= 100)%Z) by lia.
  assert (H : 1 < 2) by reflexivity.
  split; [exact Hp|]; split; [exact H|].
  apply (toSlider_sliderToZoom_round_trip steps100 80 1 2 Hp H).
Defined.

Lemma in_range_is_plain_check_at_zero_bound :
  0 < 1
  /\ in_range (1 # 2) 0 1 = in_range_plain (1 # 2) 0 1
  /\ JS.or 0 0 == 0.
Proof.
  assert (H : 0 < 1) by reflexivity.
  destruct (in_range_is_plain_check (1 # 2) 0 1 H) as (E & E0 & _).
  split; [exact H|]; split; [exact E | exact E0].
Defined.

Lemma zoom_out_of_range_is_noop_at_150 :
  instance (run100 [Mount help_props]) = Some closed_help
  /\ 1 < 2
  /\ 2 < sliderToZoom steps100 150 1 2
  /\ zoom100 help_props 150 = []
  /\ step100 (run100 [Mount help_props]) (SliderChange 150)
     = run100 [Mount help_props].
Proof.
  assert (Hi : instance (run100 [Mount help_props]) = Some closed_help)
    by reflexivity.
  assert (H : 1 < 2) by reflexivity.
  assert (Hz : 2 < sliderToZoom steps100 150 1 2) by reflexivity.
  split; [exact Hi|]; split; [exact H|]; split; [exact Hz|].
  apply (zoom_out_of_range_is_noop steps100 Sample.max_zoom Sample.min_zoom
           (run100 [Mount help_props]) closed_help 150 Hi H (or_intror Hz)).
Defined.

Lemma zoom_in_range_forwards_delta_at_80 :
  instance (run100 [Mount help_props]) = Some closed_help
  /\ 1 < 2
  /\ 1 <= sliderToZoom steps100 80 1 2 <= 2
  /\ zoom100 help_props 80
     = [ModifyZoom (sliderToZoom steps100 80 1 2 - (3 # 2))]
  /\ sliderToZoom steps100 80 1 2 - (3 # 2) == 3 # 10.
Proof.
  assert (Hi : instance (run100 [Mount help_props]) = Some closed_help)
    by reflexivity.
  assert (H : 1 < 2) by reflexivity.
  assert (Hz : 1 <= sliderToZoom steps100 80 1 2 <= 2)
    by (split; vm_compute; discriminate).
  split; [exact Hi|]; split; [exact H|]; split; [exact Hz|].
  split; [|reflexivity].
  apply (zoom_in_range_forwards_delta steps100 Sample.max_zoom Sample.min_zoom
           (run100 [Mount help_props]) closed_help 80 Hi H Hz).
Defined.

Lemma document_click_while_open_sample :
  instance (run100 [Mount help_props; HelpMouseDown]) = Some open_help
  /\ on (showHelp (props open_help)) = true
  /\ helpShowing open_help = true
  /\ is_open (step100 (run100 [Mount help_props; HelpMouseDown])
                      (DocumentClick Dom.Elsewhere)) = false
  /\ is_open (step100 (run100 [Mount help_props; HelpMouseDown])
                      (DocumentClick (Dom.Within [2; 1; 0]%nat))) = true.
Proof.
  assert (Hi : instance (run100 [Mount help_props; HelpMouseDown])
               = Some open_help) by reflexivity.
  assert (Hon : on (showHelp (props open_help)) = true) by reflexivity.
  assert (Hs : helpShowing open_help = true) by reflexivity.
  split; [exact Hi|]; split; [exact Hon|]; split; [exact Hs|]; split.
  - destruct (document_click_while_open
                steps100 Sample.max_zoom Sample.min_zoom
                [Mount help_props; HelpMouseDown] open_help Dom.Elsewhere
                Hi Hon Hs) as (c & _ & Hout & _).
    apply Hout; reflexivity.
  - destruct (document_click_while_open
                steps100 Sample.max_zoom Sample.min_zoom
                [Mount help_props; HelpMouseDown] open_help
                (Dom.Within [2; 1; 0]%nat) Hi Hon Hs) as (c & Hc & _ & Hin).
    apply Hin; injection Hc as <-; reflexivity.
Defined.

Lemma document_click_only_closes_sample :
  handleDocumentClick100 open_help (Dom.Within [2; 0]%nat) = JS.Normal open_help
  /\ helpShowing open_help = true
  /\ exists c, helpContainerRef open_help = Some c
              /\ Dom.contains c (Dom.Within [2; 0]%nat) = true.
Proof.
  assert (Hh : handleDocumentClick100 open_help (Dom.Within [2; 0]%nat)
               = JS.Normal open_help) by reflexivity.
  assert (Hs : helpShowing open_help = true) by reflexivity.
  split; [exact Hh|]; split; [exact Hs|].
  apply (proj1 (document_click_only_closes
                  steps100 Sample.max_zoom Sample.min_zoom)
           open_help open_help (Dom.Within [2; 0]%nat) Hh Hs).
Defined.

Lemma showHelp_off_no_controller_sample :
  instance (run100 [Mount plain_props]) = Some closed_plain
  /\ on (showHelp (props closed_plain)) = false
  /\ listeners (run100 [Mount plain_props]) = []
  /\ helpContainerRef closed_plain = None.
Proof.
  assert (Hi : instance (run100 [Mount plain_props]) = Some closed_plain)
    by reflexivity.
  assert (Hoff : on (showHelp (props closed_plain)) = false) by reflexivity.
  destruct (showHelp_off_no_controller
              steps100 Sample.max_zoom Sample.min_zoom
              [Mount plain_props] closed_plain Hi Hoff) as (Hl & Hr & _).
  split; [exact Hi|]; split; [exact Hoff|]; split; [exact Hl | exact Hr].
Defined.

Lemma listener_follows_showHelp_sample :
  listening (run100 [Mount help_props; HelpMouseDown; HelpMouseDown]) = true
  /\ is_open (run100 [Mount help_props; HelpMouseDown; HelpMouseDown]) = false
  /\ is_open (step100 (run100 [Mount help_props; HelpMouseDown; HelpMouseDown])
                      (DocumentClick Dom.Elsewhere)) = false.
Proof.
  destruct (listener_follows_showHelp
              steps100 Sample.max_zoom Sample.min_zoom
              [Mount help_props; HelpMouseDown; HelpMouseDown])
    as (Hl & _ & _ & Hc).
  assert (Ho : is_open (run100 [Mount help_props; HelpMouseDown; HelpMouseDown])
               = false) by reflexivity.
  split; [rewrite Hl; reflexivity|]; split; [exact Ho|].
  apply (Hc Dom.Elsewhere Ho).
Defined.


(** ** Where the code departs from the specification *)

(** C1.  With [showHelp] on, the listener is registered from the mount on,
    while the panel is closed; and closing the panel again does not remove
    it. *)
Lemma listener_registered_while_closed :
  is_open (run100 [Mount help_props]) = false
  /\ listeners (run100 [Mount help_props]) = [0%nat]
  /\ is_open (run100 [Mount help_props; HelpMouseDown; HelpMouseDown]) = false
  /\ listeners (run100 [Mount help_props; HelpMouseDown; HelpMouseDown])
     = [0%nat].
Proof. repeat split. Qed.

(** ** The further properties at sample values *)

Lemma zoom_calls_only_in_range_at_80 :
  In (ModifyZoom (60 # 200)) (zoom100 help_props 80)
  /\ zoom100 help_props 80 = [ModifyZoom (60 # 200)]
  /\ 1 <= sliderToZoom steps100 80 1 2 <= 2.
Proof.
  assert (H : In (ModifyZoom (60 # 200)) (zoom100 help_props 80))
    by (left; reflexivity).
  destruct (zoom_calls_only_in_range
              steps100 Sample.max_zoom Sample.min_zoom help_props 80 _ H)
    as (E & _ & Hz).
  split; [exact H|]; split; [exact E | exact Hz].
Defined.

Lemma zoom_inverted_bounds_never_calls_sample :
  1 < 2
  /\ zoom100 {| maxZoom := Some 1; minZoom := Some 2; zoomLevel := 3 # 2;
                showHelp := None; allowMultiSelect := None |} 50 = [].
Proof.
  assert (H : 1 < 2) by reflexivity.
  split; [exact H|].
  apply (zoom_inverted_bounds_never_calls
           steps100 Sample.max_zoom Sample.min_zoom
           {| maxZoom := Some 1; minZoom := Some 2; zoomLevel := 3 # 2;
              showHelp := None; allowMultiSelect := None |} 50 H).
Defined.

Lemma zoom_equal_bounds_asks_for_min_sample :
  2 == 2
  /\ exists delta,
      zoom100 {| maxZoom := Some 2; minZoom := Some 2; zoomLevel := 3 # 2;
                 showHelp := None; allowMultiSelect := None |} 37
      = [ModifyZoom delta]
      /\ delta == 2 - (3 # 2).
Proof.
  assert (H : 2 == 2) by reflexivity.
  split; [exact H|].
  apply (zoom_equal_bounds_asks_for_min
           steps100 Sample.max_zoom Sample.min_zoom
           {| maxZoom := Some 2; minZoom := Some 2; zoomLevel := 3 # 2;
              showHelp := None; allowMultiSelect := None |} 37 H).
Defined.



Lemma help_button_twice_sample :
  instance (run100 [Mount help_props]) = Some closed_help
  /\ on (showHelp (props closed_help)) = true
  /\ is_open (step100 (run100 [Mount help_props]) HelpMouseDown) = true
  /\ is_open (step100 (step100 (run100 [Mount help_props]) HelpMouseDown)
                      HelpMouseDown) = false.
Proof.
  assert (Hi : instance (run100 [Mount help_props]) = Some closed_help)
    by reflexivity.
  assert (Hon : on (showHelp (props closed_help)) = true) by reflexivity.
  destruct (help_button_twice steps100 Sample.max_zoom Sample.min_zoom
              [Mount help_props] closed_help Hi Hon) as (H1 & H2 & _).
  split; [exact Hi|]; split; [exact Hon|]; split; [exact H1 | exact H2].
Defined.

Lemma help_button_click_keeps_flip_sample :
  instance (run100 [Mount help_props]) = Some closed_help
  /\ on (showHelp (props closed_help)) = true
  /\ is_open (step100 (step100 (run100 [Mount help_props]) HelpMouseDown)
                      (DocumentClick (Dom.Within [2; 0; 0]%nat))) = true.
Proof.
  assert (Hi : instance (run100 [Mount help_props]) = Some closed_help)
    by reflexivity.
  assert (Hon : on (showHelp (props closed_help)) = true) by reflexivity.
  split; [exact Hi|]; split; [exact Hon|].
  apply (help_button_click_keeps_flip
           steps100 Sample.max_zoom Sample.min_zoom
           [Mount help_props] closed_help [0; 0]%nat Hi Hon).
Defined.

Lemma help_state_survives_updates_sample :
  instance (run100 [Mount help_props; HelpMouseDown]) = Some open_help
  /\ on (showHelp help_props) = true
  /\ is_open (step100 (run100 [Mount help_props; HelpMouseDown])
                      (Update plain_props)) = true
  /\ listening (step100 (step100 (run100 [Mount help_props; HelpMouseDown])
                                 (Update plain_props))
                        (Update help_props)) = true.
Proof.
  assert (Hi : instance (run100 [Mount help_props; HelpMouseDown])
               = Some open_help) by reflexivity.
  assert (Hon : on (showHelp help_props) = true) by reflexivity.
  destruct (help_state_survives_updates
              steps100 Sample.max_zoom Sample.min_zoom
              [Mount help_props; HelpMouseDown] open_help
              plain_props help_props Hi Hon)
    as (H1 & i' & _ & _ & _ & H2).
  split; [exact Hi|]; split; [exact Hon|]; split; [exact H1 | exact H2].
Defined.

Lemma effect_then_cleanup_sample :
  ~ In 3%nat [1; 2]%nat
  /\ fst (effect (Some true) 3 [1; 2]%nat) = [1; 2; 3]%nat
  /\ run_cleanup (snd (effect (Some true) 3 [1; 2]%nat))
                 (fst (effect (Some true) 3 [1; 2]%nat)) = [1; 2]%nat.
Proof.
  assert (Hn : ~ In 3%nat [1; 2]%nat)
    by (intros [H|[H|[]]]; discriminate H).
  split; [exact Hn|]; split; [reflexivity|].
  apply (proj2 (effect_then_cleanup (Some true) 3 [1; 2]%nat Hn)).
Defined.
